(** * Employee directory: access control and directory search

    A shallow embedding of [main.py] and [database.py]: the hard-coded
    user table, the cookie session, the [employees] table with its unique
    [email] column, and the request handlers [login], [logout],
    [directory] and [add_employee].

    Conventions of the embedding.
    - A Python [str] is a [string]; one [ascii] stands for one character.
      SQLite folds case for ASCII letters only, and so does [lower] here.
    - [request.session] is a dictionary from keys to strings
      ([gmap string string]); the handlers return the response together
      with the session (and the table) they leave behind.
    - [bcrypt] is a parameter of the development ([checkpw] and the two
      stored hashes): nothing below depends on how it hashes.
    - A query without ORDER BY is answered by a scan in rowid order, which
      is the order of the list that models the table. *)

From Stdlib Require Import ZArith Ascii String List Bool Lia.
From stdpp Require Import base option gmap strings list.

Local Open Scope string_scope.

(** ** Characters and the SQL functions the query uses *)

(** SQLite's [lower()]: only the 26 ASCII capitals change. *)
Definition lower_ascii (c : ascii) : ascii :=
  let n := N_of_ascii c in
  if ((65 <=? n) && (n <=? 90))%N then ascii_of_N (n + 32) else c.

Fixpoint lower (s : string) : string :=
  match s with
  | EmptyString => EmptyString
  | String c s' => String (lower_ascii c) (lower s')
  end.

Definition percent : ascii := "%"%char.
Definition underscore : ascii := "_"%char.

(** SQLite's [LIKE] (no ESCAPE clause, default case folding): [%] matches
    any run of characters, also the empty one, [_] matches exactly one
    character, every other character matches itself up to ASCII case. *)
Fixpoint like (pattern s : string) : bool :=
  match pattern with
  | EmptyString =>
      match s with EmptyString => true | String _ _ => false end
  | String c p' =>
      if Ascii.eqb c percent then
        (fix skip (t : string) : bool :=
           like p' t
           || match t with
              | EmptyString => false
              | String _ t' => skip t'
              end) s
      else
        match s with
        | EmptyString => false
        | String d s' =>
            (Ascii.eqb c underscore
             || Ascii.eqb (lower_ascii c) (lower_ascii d))
            && like p' s'
        end
  end.

(** [column.ilike(pattern)] is compiled to
    [lower(column) LIKE lower(pattern)]. *)
Definition ilike (column pattern : string) : bool :=
  like (lower pattern) (lower column).

(** ** The [employees] table *)

(** A mapped [Employee] object. [id] is [None] until the INSERT that
    stores the object gives it its primary key. *)
Record Employee : Type := mkEmployee {
  id : option Z;
  name : string;
  department : string;
  email : string;
  phone : string;
  job_title : string
}.

(** [Employee(name=..., department=..., ...)] *)
Definition new_Employee (name department email phone job_title : string)
  : Employee :=
  mkEmployee None name department email phone job_title.

(** The rowid SQLite gives to the next inserted row: one more than the
    largest one in use, 1 in an empty table. *)
Definition next_id (rows : list Employee) : Z :=
  (1 + fold_right Z.max 0 (map (fun r => default 0 (id r)) rows))%Z.

(** The unique index on [email] (binary collation: exact equality). *)
Definition email_taken (rows : list Employee) (e : string) : bool :=
  existsb (fun r => String.eqb (email r) e) rows.

Inductive Exception : Type :=
| IntegrityError     (* a constraint of the schema is violated *)
| OperationalError.  (* the database cannot be reached, is locked, ... *)

(** One INSERT. *)
Definition insert_row (rows : list Employee) (e : Employee)
  : Exception + list Employee :=
  if email_taken rows (email e) then inl IntegrityError
  else inr (rows ++ [mkEmployee (Some (next_id rows)) (name e)
                       (department e) (email e) (phone e) (job_title e)])%list.

(** The flush of the pending objects, in the order they were added. *)
Fixpoint flush (rows : list Employee) (objs : list Employee)
  : Exception + list Employee :=
  match objs with
  | [] => inr rows
  | e :: objs' =>
      match insert_row rows e with
      | inl err => inl err
      | inr rows' => flush rows' objs'
      end
  end.

(** A SQLAlchemy session ([db]): the committed rows of the table and the
    objects added since the last commit or rollback. *)
Record DbSession : Type := mkDb {
  table : list Employee;
  pending : list Employee
}.

Definition db_add (e : Employee) (db : DbSession) : DbSession :=
  mkDb (table db) (pending db ++ [e])%list.

Definition db_add_all (es : list Employee) (db : DbSession) : DbSession :=
  mkDb (table db) (pending db ++ es)%list.

(** [db.commit()]. [fault] is the condition of the store when the commit
    runs: [Some e] when it fails with [e] whatever is written, [None] when
    it works, in which case the only failure left is a violated
    constraint. A commit that raises stores nothing. *)
Definition db_commit (fault : option Exception) (db : DbSession)
  : option Exception * DbSession :=
  match fault with
  | Some e => (Some e, db)
  | None =>
      match flush (table db) (pending db) with
      | inl e => (Some e, db)
      | inr rows' => (None, mkDb rows' [])
      end
  end.

Definition db_rollback (db : DbSession) : DbSession :=
  mkDb (table db) [].

(** The objects [seed_data] adds to an empty table. *)
Definition seed_employees : list Employee :=
  [ new_Employee "Alice Smith" "Engineering" "alice@company.com" "555-0101" "Senior Engineer";
    new_Employee "Bob Jones" "Engineering" "bob@company.com" "555-0102" "Software Developer";
    new_Employee "Charlie Brown" "HR" "charlie@company.com" "555-0103" "HR Manager";
    new_Employee "David Wilson" "Sales" "david@company.com" "555-0104" "Sales Director";
    new_Employee "Eve Davis" "Engineering" "eve@company.com" "555-0105" "DevOps Engineer";
    new_Employee "Frank Miller" "Sales" "frank@company.com" "555-0106" "Account Executive";
    new_Employee "Grace Lee" "HR" "grace@company.com" "555-0107" "Recruiter";
    new_Employee "Hank Green" "Engineering" "hank@company.com" "555-0108" "QA Engineer";
    new_Employee "Ivy White" "Marketing" "ivy@company.com" "555-0109" "Marketing Lead";
    new_Employee "Jack Black" "Marketing" "jack@company.com" "555-0110" "Content Creator" ].

(** [seed_data(db)], run at startup on a working store: the table after
    it. *)
Definition seed_data (rows : list Employee) : list Employee :=
  if (length rows =? 0)%nat then
    table (snd (db_commit None (db_add_all seed_employees (mkDb rows []))))
  else rows.

(** The table of a fresh installation. *)
Definition seed_rows : list Employee := seed_data [].

(** [on_startup()]: every start of the application runs [seed_data] on
    the table it finds. *)
Definition on_startup (rows : list Employee) : list Employee :=
  seed_data rows.

(** ** The query of [directory] *)

(** Python truthiness of an optional string: [None] and the empty string
    are false. *)
Definition truthy (q : option string) : bool :=
  match q with
  | Some (String _ _) => true
  | _ => false
  end.

(** The filter clause: the three columns, joined by OR. *)
Definition matches (search : string) (e : Employee) : bool :=
  ilike (name e) search || ilike (department e) search
  || ilike (job_title e) search.

(** [db.query(Employee)], filtered when [q] is truthy, then [.all()]. *)
Definition search_employees (rows : list Employee) (q : option string)
  : list Employee :=
  match q with
  | Some (String c q') =>
      let search := "%" +:+ String c q' +:+ "%" in
      List.filter (matches search) rows
  | _ => rows
  end.

(** ** What the specification calls a case-insensitive substring *)

Fixpoint prefix_ci (term s : string) : bool :=
  match term with
  | EmptyString => true
  | String c term' =>
      match s with
      | EmptyString => false
      | String d s' =>
          Ascii.eqb (lower_ascii c) (lower_ascii d) && prefix_ci term' s'
      end
  end.

(** [term] occurs in [s] at some position, letters compared up to case. *)
Fixpoint contains_ci (term s : string) : bool :=
  prefix_ci term s
  || match s with
     | EmptyString => false
     | String _ s' => contains_ci term s'
     end.

(** The search the specification describes: keep the records in which the
    term occurs in the name, the department or the job title. *)
Definition spec_matches (term : string) (e : Employee) : bool :=
  contains_ci term (name e) || contains_ci term (department e)
  || contains_ci term (job_title e).

Definition spec_search (rows : list Employee) (term : string)
  : list Employee :=
  List.filter (spec_matches term) rows.

(** A term is literal when it holds none of the two [LIKE] wildcards. *)
Fixpoint literal (term : string) : bool :=
  match term with
  | EmptyString => true
  | String c term' =>
      negb (Ascii.eqb c percent) && negb (Ascii.eqb c underscore)
      && literal term'
  end.


(** ** Users and the cookie session *)

(** An entry of [USERS]; [user_name] is its ["name"] key. *)
Record User (Hash : Type) : Type := mkUser {
  password_hash : Hash;
  role : string;
  user_name : string
}.
Arguments mkUser {Hash}.
Arguments password_hash {Hash}.
Arguments role {Hash}.
Arguments user_name {Hash}.

(** The context dictionary handed to a template; a key that is absent or
    bound to [None] reads as [None]. *)
Record Context (Hash : Type) : Type := mkContext {
  ctx_error : option string;
  ctx_employees : option (list Employee);
  ctx_user : option (User Hash);
  ctx_q : option string
}.
Arguments mkContext {Hash}.
Arguments ctx_error {Hash}.
Arguments ctx_employees {Hash}.
Arguments ctx_user {Hash}.
Arguments ctx_q {Hash}.

Inductive Response (Hash : Type) : Type :=
| RedirectResponse (url : string) (status_code : Z)
| TemplateResponse (template : string) (context : Context Hash).
Arguments RedirectResponse {Hash}.
Arguments TemplateResponse {Hash}.

(** How a handler ends: with a response, or with an exception that
    leaves it and reaches the framework. *)
Inductive Outcome (Hash : Type) : Type :=
| Returned (r : Response Hash)
| Raised (e : Exception).
Arguments Returned {Hash}.
Arguments Raised {Hash}.

(** A stand-in for bcrypt on which the handlers can be run: the stored
    value is the password itself. *)
Definition plain_checkpw (password hashed : string) : bool :=
  String.eqb password hashed.

Section Handlers.

Context {Hash : Type}.
(** [bcrypt.checkpw] and the two hashes computed at start-up. *)
Variable checkpw : string -> Hash -> bool.
Variables ADMIN_HASH USER_HASH : Hash.

Definition USERS : gmap string (User Hash) :=
  {[ "admin" := mkUser ADMIN_HASH "admin" "System Administrator";
     "employee" := mkUser USER_HASH "employee" "John Doe" ]}.

Definition get_current_user (session : gmap string string)
  : option (User Hash) :=
  match session !! "user" with
  | Some user_id =>
      if truthy (Some user_id) then
        match USERS !! user_id with
        | Some user => Some user
        | None => None
        end
      else None
  | None => None
  end.

Definition invalid_credentials : Response Hash :=
  TemplateResponse "login.html"
    (mkContext (Some "Invalid credentials") None None None).

Definition login (session : gmap string string)
  (username password : string) : Response Hash * gmap string string :=
  match USERS !! username with
  | None => (invalid_credentials, session)
  | Some user =>
      if checkpw password (password_hash user) then
        (RedirectResponse "/directory" 303, <["user" := username]> session)
      else (invalid_credentials, session)
  end.

(** [request.session.clear()] *)
Definition logout (session : gmap string string)
  : Response Hash * gmap string string :=
  (RedirectResponse "/login" 303, ∅).

Definition directory (session : gmap string string) (q : option string)
  (rows : list Employee) : Response Hash :=
  match get_current_user session with
  | None => RedirectResponse "/login" 303
  | Some user =>
      let employees := search_employees rows q in
      TemplateResponse "directory.html"
        (mkContext None (Some employees) (Some user) q)
  end.

Definition add_error : string :=
  "Error adding employee. Email might already exist.".

(** The handler gets a fresh database session over the current table
    and leaves the table behind. *)
Definition add_employee (fault : option Exception)
  (session : gmap string string)
  (name department email phone job_title : string)
  (rows : list Employee) : Outcome Hash * list Employee :=
  match get_current_user session with
  | None => (Returned (RedirectResponse "/directory" 303), rows)
  | Some user =>
      if negb (String.eqb (role user) "admin") then
        (Returned (RedirectResponse "/directory" 303), rows)
      else
        let new_employee :=
          new_Employee name department email phone job_title in
        let db := db_add new_employee (mkDb rows []) in
        match db_commit fault db with
        | (Some e, db') =>
            let db'' := db_rollback db' in
            (Returned
               (TemplateResponse "add_employee.html"
                  (mkContext (Some add_error) None (Some user) None)),
             table db'')
        | (None, db') =>
            (Returned (RedirectResponse "/directory" 303), table db')
        end
  end.

(** [GET /] *)
Definition root (session : gmap string string) : Response Hash :=
  match get_current_user session with
  | Some _ => RedirectResponse "/directory" 303
  | None => RedirectResponse "/login" 303
  end.

(** [GET /login] *)
Definition login_page : Response Hash :=
  TemplateResponse "login.html" (mkContext None None None None).

(** [GET /add-employee] *)
Definition add_employee_page (session : gmap string string)
  : Response Hash :=
  match get_current_user session with
  | None => RedirectResponse "/directory" 303
  | Some user =>
      if negb (String.eqb (role user) "admin") then
        RedirectResponse "/directory" 303
      else
        TemplateResponse "add_employee.html"
          (mkContext None None (Some user) None)
  end.

End Handlers.

(** * Properties *)

(** ** Case folding and [LIKE] *)

Ltac each_ascii c :=
  destruct c as [[] [] [] [] [] [] [] []]; vm_compute; reflexivity.

Lemma lower_ascii_idem (c : ascii) :
  lower_ascii (lower_ascii c) = lower_ascii c.
Proof. each_ascii c. Qed.

Lemma lower_ascii_percent (c : ascii) :
  Ascii.eqb (lower_ascii c) percent = Ascii.eqb c percent.
Proof. each_ascii c. Qed.

Lemma lower_ascii_underscore (c : ascii) :
  Ascii.eqb (lower_ascii c) underscore = Ascii.eqb c underscore.
Proof. each_ascii c. Qed.

Lemma lower_app (s t : string) : lower (s +:+ t) = lower s +:+ lower t.
Proof. induction s as [|c s IH]; simpl; [reflexivity | now rewrite IH]. Qed.

Lemma literal_lower (term : string) : literal (lower term) = literal term.
Proof.
  induction term as [|c term IH]; simpl; [reflexivity|].
  now rewrite lower_ascii_percent, lower_ascii_underscore, IH.
Qed.

Lemma prefix_ci_lower (term s : string) :
  prefix_ci (lower term) (lower s) = prefix_ci term s.
Proof.
  revert s; induction term as [|c term IH]; intros [|d s]; simpl;
    try reflexivity.
  now rewrite !lower_ascii_idem, IH.
Qed.

Lemma contains_ci_lower (term s : string) :
  contains_ci (lower term) (lower s) = contains_ci term s.
Proof.
  induction s as [|d s IH].
  - cbn [contains_ci]. rewrite <- (prefix_ci_lower term ""). reflexivity.
  - cbn [contains_ci]. rewrite <- (prefix_ci_lower term (String d s)).
    rewrite <- IH. reflexivity.
Qed.

(** The two equations of [like] on a non-empty pattern. *)
Lemma like_percent_cons (p s : string) :
  like (String percent p) s
  = like p s
    || match s with
       | EmptyString => false
       | String _ s' => like (String percent p) s'
       end.
Proof. destruct s; reflexivity. Qed.

Lemma like_char_cons (c : ascii) (p s : string) :
  Ascii.eqb c percent = false ->
  like (String c p) s
  = match s with
    | EmptyString => false
    | String d s' =>
        (Ascii.eqb c underscore
         || Ascii.eqb (lower_ascii c) (lower_ascii d))
        && like p s'
    end.
Proof. intros H. destruct s; simpl; rewrite H; reflexivity. Qed.

(** A pattern that is a lone [%] matches everything. *)
Lemma like_percent (s : string) : like "%" s = true.
Proof.
  induction s as [|d s IH]; [reflexivity|].
  change "%" with (String percent "") in *.
  rewrite like_percent_cons, IH. apply orb_true_r.
Qed.

(** A literal term followed by [%] is a prefix test. *)
Lemma like_literal_prefix (term s : string) :
  literal term = true -> like (term +:+ "%") s = prefix_ci term s.
Proof.
  revert s; induction term as [|c term IH]; intros s Hlit.
  - apply like_percent.
  - simpl in Hlit. apply andb_true_iff in Hlit as [Hc Hlit].
    apply andb_true_iff in Hc as [Hp Hu].
    apply negb_true_iff in Hp. apply negb_true_iff in Hu.
    change (String c term +:+ "%") with (String c (term +:+ "%")).
    rewrite (like_char_cons _ _ _ Hp).
    destruct s as [|d s]; [reflexivity|].
    rewrite Hu, (IH s Hlit). reflexivity.
Qed.

(** A literal term between two [%] is a substring test. *)
Lemma like_literal_contains (term s : string) :
  literal term = true ->
  like ("%" +:+ term +:+ "%") s = contains_ci term s.
Proof.
  intros Hlit.
  change ("%" +:+ term +:+ "%") with (String percent (term +:+ "%")).
  induction s as [|d s IH]; rewrite like_percent_cons.
  - now rewrite (like_literal_prefix term "" Hlit).
  - now rewrite IH, (like_literal_prefix term (String d s) Hlit).
Qed.

Lemma ilike_literal_contains (term column : string) :
  literal term = true ->
  ilike column ("%" +:+ term +:+ "%") = contains_ci term column.
Proof.
  intros Hlit. unfold ilike.
  change ("%" +:+ term +:+ "%") with (String percent (term +:+ "%")).
  cbn [lower]. rewrite lower_app.
  change (String (lower_ascii percent) (lower term +:+ lower "%"))
    with ("%" +:+ lower term +:+ "%").
  rewrite like_literal_contains by now rewrite literal_lower.
  apply contains_ci_lower.
Qed.

(** [prefix_ci] and [contains_ci] say what their names say. *)
Lemma prefix_ci_spec (term s : string) :
  prefix_ci term s = true <-> exists post, lower s = lower term +:+ post.
Proof.
  revert s; induction term as [|c term IH]; intros s; simpl.
  - split; [intros _; now exists (lower s) | reflexivity].
  - destruct s as [|d s]; simpl.
    + split; [discriminate | intros [post H]; discriminate].
    + rewrite andb_true_iff, IH. split.
      * intros [Hc [post H]]. apply Ascii.eqb_eq in Hc.
        exists post. now rewrite Hc, H.
      * intros [post H]. injection H as Hc H. split.
        -- rewrite Hc. apply Ascii.eqb_refl.
        -- now exists post.
Qed.

Lemma contains_ci_spec (term s : string) :
  contains_ci term s = true
  <-> exists pre post, lower s = pre +:+ lower term +:+ post.
Proof.
  induction s as [|d s IH].
  - simpl. rewrite orb_false_r, prefix_ci_spec. split.
    + intros [post H]. now exists "", post.
    + intros [[|a pre] [post H]]; [now exists post | discriminate].
  - cbn [contains_ci]. rewrite orb_true_iff, IH, prefix_ci_spec. split.
    + intros [[post H] | [pre [post H]]].
      * now exists "", post.
      * exists (String (lower_ascii d) pre), post. simpl. now rewrite H.
    + intros [[|a pre] [post H]].
      * left. now exists post.
      * right. simpl in H. injection H as _ H. now exists pre, post.
Qed.

(** For a literal term the query of [directory] is the search of the
    specification. *)
Lemma search_literal_term (rows : list Employee) (term : string) :
  term <> "" -> literal term = true ->
  search_employees rows (Some term) = spec_search rows term.
Proof.
  intros Hne Hlit. destruct term as [|c term]; [congruence|].
  unfold search_employees, spec_search.
  apply filter_ext. intros e. unfold matches, spec_matches.
  now rewrite !ilike_literal_contains.
Qed.

(** ** Directory search *)

(** C2, the code at a failing input: with the term [_] the query of
    [directory] returns all ten seeded records, although [_] occurs in no
    name, department or job title, so that the search of the
    specification returns none. [_] is a wildcard of [LIKE] and the
    handler passes the term on unescaped. *)
Theorem search_wildcard_term :
  search_employees seed_rows (Some "_") = seed_rows
  /\ length seed_rows = 10%nat
  /\ spec_search seed_rows "_" = [].
Proof. vm_compute. repeat split; reflexivity. Qed.

(** C9: against the ten seeded records the term [Engin] returns Alice
    Smith, Bob Jones, Eve Davis and Hank Green, in this order; these are
    the records whose department is Engineering or whose job title
    contains [Engin]; on the job title, "QA Engineer" matches and
    "Software Developer" does not. *)
Theorem search_engin_seeded :
  search_employees seed_rows (Some "Engin")
  = [ mkEmployee (Some 1%Z) "Alice Smith" "Engineering" "alice@company.com" "555-0101" "Senior Engineer";
      mkEmployee (Some 2%Z) "Bob Jones" "Engineering" "bob@company.com" "555-0102" "Software Developer";
      mkEmployee (Some 5%Z) "Eve Davis" "Engineering" "eve@company.com" "555-0105" "DevOps Engineer";
      mkEmployee (Some 8%Z) "Hank Green" "Engineering" "hank@company.com" "555-0108" "QA Engineer" ]
  /\ search_employees seed_rows (Some "Engin")
     = List.filter
         (fun e => String.eqb (department e) "Engineering"
                   || contains_ci "Engin" (job_title e))
         seed_rows
  /\ ilike "QA Engineer" "%Engin%" = true
  /\ ilike "Software Developer" "%Engin%" = false.
Proof. vm_compute. repeat split; reflexivity. Qed.

(** ** The handlers *)

Section HandlerProperties.

Context {Hash : Type}.
Variable checkpw : string -> Hash -> bool.
Variables ADMIN_HASH USER_HASH : Hash.

Local Abbreviation users := (USERS ADMIN_HASH USER_HASH).
Local Abbreviation current_user := (get_current_user ADMIN_HASH USER_HASH).
Local Abbreviation do_login := (login checkpw ADMIN_HASH USER_HASH).
Local Abbreviation do_directory := (directory ADMIN_HASH USER_HASH).
Local Abbreviation do_add := (add_employee ADMIN_HASH USER_HASH).

Lemma USERS_lookup_Some (h : string) (u : User Hash) :
  users !! h = Some u ->
  (h = "admin" /\ u = mkUser ADMIN_HASH "admin" "System Administrator")
  \/ (h = "employee" /\ u = mkUser USER_HASH "employee" "John Doe").
Proof.
  unfold USERS. rewrite lookup_insert_Some, lookup_singleton_Some.
  intros [[? ?] | [_ [? ?]]]; [left | right]; split; congruence.
Qed.

Lemma USERS_key_truthy (h : string) (u : User Hash) :
  users !! h = Some u -> truthy (Some h) = true.
Proof.
  intros H. destruct (USERS_lookup_Some h u H) as [[-> _] | [-> _]];
    reflexivity.
Qed.

Lemma get_current_user_empty : current_user ∅ = None.
Proof. unfold get_current_user. now rewrite lookup_empty. Qed.

(** The session that [login] writes resolves to the user it names. *)
Lemma get_current_user_insert (session : gmap string string)
  (h : string) (u : User Hash) :
  users !! h = Some u -> current_user (<["user" := h]> session) = Some u.
Proof.
  intros H. unfold get_current_user.
  rewrite lookup_insert_eq, (USERS_key_truthy h u H), H. reflexivity.
Qed.


(** C6: after a successful login of a known user the session resolves
    to that user. *)
Theorem login_then_get_current_user
  (session : gmap string string) (h p : string) (u : User Hash) :
  users !! h = Some u ->
  checkpw p (password_hash u) = true ->
  fst (do_login session h p) = RedirectResponse "/directory" 303
  /\ current_user (snd (do_login session h p)) = Some u.
Proof.
  intros Hu Hpw. unfold login. rewrite Hu, Hpw. split; [reflexivity|].
  apply get_current_user_insert, Hu.
Qed.

(** C7: after [logout] the session resolves to no user, as a session
    that never held one does; [logout] on a session that is already
    cleared, or that was empty from the start, returns the same
    redirect and the same empty session: it never fails. *)
Theorem logout_then_get_current_user (session : gmap string string) :
  current_user (snd (logout (Hash:=Hash) session)) = None
  /\ current_user (snd (logout (Hash:=Hash) session)) = current_user ∅
  /\ logout (Hash:=Hash) (snd (logout (Hash:=Hash) session))
     = logout session
  /\ logout (Hash:=Hash) ∅ = (RedirectResponse "/login" 303, ∅)
  /\ fst (logout (Hash:=Hash) session) = RedirectResponse "/login" 303.
Proof.
  unfold logout; simpl. rewrite get_current_user_empty.
  repeat split; reflexivity.
Qed.

(** C10: a login that fails, through an unknown handle or a wrong
    secret, leaves the session exactly as it was, so the user it
    resolves to, if any, is the one from before. *)
Theorem failed_login_keeps_session
  (session : gmap string string) (h p : string) :
  (forall u, users !! h = Some u -> checkpw p (password_hash u) = false) ->
  snd (do_login session h p) = session
  /\ fst (do_login session h p) = invalid_credentials
  /\ current_user (snd (do_login session h p)) = current_user session.
Proof.
  intros Hfail. unfold login.
  destruct (users !! h) as [u|] eqn:Hu.
  - rewrite (Hfail u eq_refl). repeat split; reflexivity.
  - repeat split; reflexivity.
Qed.

(** Only a successful credential check changes the session. *)
Lemma login_changes_session_on_success
  (session : gmap string string) (h p : string) :
  snd (do_login session h p) <> session ->
  exists u, users !! h = Some u /\ checkpw p (password_hash u) = true.
Proof.
  unfold login. destruct (users !! h) as [u|]; [|simpl; congruence].
  destruct (checkpw p (password_hash u)) eqn:Hpw; [|simpl; congruence].
  intros _. now exists u.
Qed.

(** C8: with an empty or absent term the query returns all records in
    the order of the store, and [directory] shows them to a logged-in
    user; without a user in the session [directory] redirects to the
    login page whatever the term and the table are. *)
Theorem directory_without_term
  (session anon : gmap string string) (u : User Hash)
  (q q' : option string) (rows rows' : list Employee) :
  truthy q = false ->
  current_user session = Some u ->
  current_user anon = None ->
  search_employees rows q = rows
  /\ do_directory session q rows
     = TemplateResponse "directory.html"
         (mkContext None (Some rows) (Some u) q)
  /\ do_directory anon q' rows' = RedirectResponse "/login" 303.
Proof.
  intros Hq Hu Hanon.
  assert (Hall : search_employees rows q = rows).
  { destruct q as [[|c q]|]; [reflexivity | discriminate | reflexivity]. }
  unfold directory. rewrite Hu, Hanon, Hall. repeat split; reflexivity.
Qed.

(** C1: when the session resolves to no user, or to a user whose role
    is not admin, [add_employee] answers with a redirect and the table
    is the one it started from, whatever the fields are and whether
    the store works or not. *)
Theorem add_employee_requires_admin
  (fault : option Exception) (session : gmap string string)
  (n d e p j : string) (rows : list Employee) :
  (forall u, current_user session = Some u -> role u <> "admin") ->
  do_add fault session n d e p j rows
  = (Returned (RedirectResponse "/directory" 303), rows).
Proof.
  intros Hrole. unfold add_employee.
  destruct (current_user session) as [u|]; [|reflexivity].
  specialize (Hrole u eq_refl). apply String.eqb_neq in Hrole.
  rewrite Hrole. reflexivity.
Qed.

(** The table changes only for an admin. *)
Lemma add_employee_writes_as_admin
  (fault : option Exception) (session : gmap string string)
  (n d e p j : string) (rows : list Employee) :
  snd (do_add fault session n d e p j rows) <> rows ->
  exists u, current_user session = Some u /\ role u = "admin".
Proof.
  unfold add_employee.
  destruct (current_user session) as [u|]; [|simpl; congruence].
  destruct (String.eqb_spec (role u) "admin") as [Hadmin|_];
    [|simpl; congruence].
  intros _. now exists u.
Qed.

(** The commit of one new object whose email is in the table. *)
Lemma commit_duplicate_email (n d e p j : string) (rows : list Employee) :
  email_taken rows e = true ->
  db_commit None (db_add (new_Employee n d e p j) (mkDb rows []))
  = (Some IntegrityError, mkDb rows [new_Employee n d e p j]).
Proof.
  intros Hdup. unfold db_commit, db_add, insert_row; simpl.
  unfold insert_row; simpl. rewrite Hdup. reflexivity.
Qed.

(** C3: when an admin adds a record whose email is already in the
    table, the commit raises the integrity error of the unique index,
    the handler catches it and rolls back, the table and its length are
    unchanged, and the form is shown again with the message that the
    email might already exist. *)
Theorem add_employee_duplicate_email
  (session : gmap string string) (u : User Hash)
  (n d e p j : string) (rows : list Employee) :
  current_user session = Some u ->
  role u = "admin" ->
  email_taken rows e = true ->
  fst (db_commit None (db_add (new_Employee n d e p j) (mkDb rows [])))
  = Some IntegrityError
  /\ do_add None session n d e p j rows
     = (Returned
          (TemplateResponse "add_employee.html"
             (mkContext (Some add_error) None (Some u) None)), rows)
  /\ length (snd (do_add None session n d e p j rows)) = length rows.
Proof.
  intros Hu Hrole Hdup.
  assert (Hadd : do_add None session n d e p j rows
                 = (Returned
                      (TemplateResponse "add_employee.html"
                         (mkContext (Some add_error) None (Some u) None)),
                    rows)).
  { unfold add_employee. rewrite Hu, Hrole.
    rewrite (commit_duplicate_email n d e p j rows Hdup). reflexivity. }
  rewrite (commit_duplicate_email n d e p j rows Hdup), Hadd.
  repeat split; reflexivity.
Qed.

(** C4, as the code has it: when the store fails during the commit of
    an admin's [add_employee], with whatever exception, the handler
    catches it, rolls back and returns the form with the same message
    as for a duplicate email; nothing is raised to the framework and
    the table is unchanged. *)
Theorem add_employee_store_failure
  (exn : Exception) (session : gmap string string) (u : User Hash)
  (n d e p j : string) (rows : list Employee) :
  current_user session = Some u ->
  role u = "admin" ->
  do_add (Some exn) session n d e p j rows
  = (Returned
       (TemplateResponse "add_employee.html"
          (mkContext (Some add_error) None (Some u) None)), rows).
Proof.
  intros Hu Hrole. unfold add_employee. rewrite Hu, Hrole. reflexivity.
Qed.

End HandlerProperties.

(** ** The theorems on concrete requests

    The handlers are run with [plain_checkpw] and the passwords
    themselves as stored values. *)

Lemma add_employee_requires_admin_witness :
  add_employee (Hash:=string) "adminpass" "userpass" None
    {["user" := "employee"]}
    "Zoe Hill" "HR" "zoe@company.com" "555-0111" "Clerk" seed_rows
  = (Returned (RedirectResponse "/directory" 303), seed_rows).
Proof.
  apply add_employee_requires_admin.
  intros u H. vm_compute in H. injection H as <-. discriminate.
Defined.

Lemma add_employee_duplicate_email_witness :
  fst (db_commit None
         (db_add (new_Employee "Alice Again" "HR" "alice@company.com"
                    "555-0111" "Clerk") (mkDb seed_rows [])))
  = Some IntegrityError
  /\ add_employee (Hash:=string) "adminpass" "userpass" None
       {["user" := "admin"]}
       "Alice Again" "HR" "alice@company.com" "555-0111" "Clerk" seed_rows
     = (Returned
          (TemplateResponse "add_employee.html"
             (mkContext (Some add_error) None
                (Some (mkUser "adminpass" "admin" "System Administrator"))
                None)), seed_rows)
  /\ length
       (snd (add_employee (Hash:=string) "adminpass" "userpass" None
               {["user" := "admin"]}
               "Alice Again" "HR" "alice@company.com" "555-0111" "Clerk"
               seed_rows))
     = length seed_rows.
Proof.
  apply add_employee_duplicate_email; vm_compute; reflexivity.
Defined.

Lemma add_employee_store_failure_witness :
  add_employee (Hash:=string) "adminpass" "userpass"
    (Some OperationalError) {["user" := "admin"]}
    "Zoe Hill" "HR" "zoe@company.com" "555-0111" "Clerk" seed_rows
  = (Returned
       (TemplateResponse "add_employee.html"
          (mkContext (Some add_error) None
             (Some (mkUser "adminpass" "admin" "System Administrator"))
             None)), seed_rows).
Proof.
  apply add_employee_store_failure; vm_compute; reflexivity.
Defined.

(** C4 as the specification has it fails: the store is unavailable when
    an admin adds a record with a fresh email, and the handler does not
    raise the failure; it returns the very response it returns for a
    duplicate email. *)
Lemma add_employee_failure_not_raised :
  fst (add_employee (Hash:=string) "adminpass" "userpass"
         (Some OperationalError) {["user" := "admin"]}
         "Zoe Hill" "HR" "zoe@company.com" "555-0111" "Clerk" seed_rows)
  <> Raised OperationalError
  /\ email_taken seed_rows "zoe@company.com" = false
  /\ fst (add_employee (Hash:=string) "adminpass" "userpass"
            (Some OperationalError) {["user" := "admin"]}
            "Zoe Hill" "HR" "zoe@company.com" "555-0111" "Clerk" seed_rows)
     = fst (add_employee (Hash:=string) "adminpass" "userpass" None
              {["user" := "admin"]}
              "Zoe Hill" "HR" "alice@company.com" "555-0111" "Clerk"
              seed_rows).
Proof.
  split; [vm_compute; discriminate | split; vm_compute; reflexivity].
Qed.


Lemma login_then_get_current_user_witness :
  fst (login (Hash:=string) plain_checkpw "adminpass" "userpass" ∅
         "employee" "userpass")
  = RedirectResponse "/directory" 303
  /\ get_current_user "adminpass" "userpass"
       (snd (login (Hash:=string) plain_checkpw "adminpass" "userpass" ∅
               "employee" "userpass"))
     = Some (mkUser "userpass" "employee" "John Doe").
Proof.
  apply login_then_get_current_user; vm_compute; reflexivity.
Defined.

Lemma directory_without_term_witness :
  search_employees seed_rows (Some "") = seed_rows
  /\ directory (Hash:=string) "adminpass" "userpass"
       {["user" := "employee"]} (Some "") seed_rows
     = TemplateResponse "directory.html"
         (mkContext None (Some seed_rows)
            (Some (mkUser "userpass" "employee" "John Doe")) (Some ""))
  /\ directory (Hash:=string) "adminpass" "userpass"
       {["user" := "nobody"]} (Some "Engin") seed_rows
     = RedirectResponse "/login" 303.
Proof.
  apply directory_without_term; vm_compute; reflexivity.
Defined.

Lemma failed_login_keeps_session_witness :
  snd (login (Hash:=string) plain_checkpw "adminpass" "userpass"
         {["user" := "employee"]} "admin" "letmein")
  = {["user" := "employee"]}
  /\ fst (login (Hash:=string) plain_checkpw "adminpass" "userpass"
            {["user" := "employee"]} "admin" "letmein")
     = invalid_credentials
  /\ get_current_user "adminpass" "userpass"
       (snd (login (Hash:=string) plain_checkpw "adminpass" "userpass"
               {["user" := "employee"]} "admin" "letmein"))
     = get_current_user "adminpass" "userpass" {["user" := "employee"]}.
Proof.
  apply failed_login_keeps_session.
  intros u H. vm_compute in H. injection H as <-. reflexivity.
Defined.

(** * Further properties of the code *)

(** ** More on the query of [directory] *)

Lemma lower_idem (s : string) : lower (lower s) = lower s.
Proof.
  induction s as [|c s IH]; simpl; [reflexivity|].
  now rewrite lower_ascii_idem, IH.
Qed.

(** The pattern that [directory] builds, folded. *)
Lemma lower_search_pattern (q : string) :
  lower ("%" +:+ q +:+ "%") = "%" +:+ lower q +:+ "%".
Proof.
  change ("%" +:+ q +:+ "%") with (String percent (q +:+ "%")).
  cbn [lower]. now rewrite lower_app.
Qed.











(** X3: the term is compared up to ASCII case: two terms that differ in
    the case of their letters only give the same result. *)
Theorem search_term_case_insensitive
  (rows : list Employee) (q1 q2 : string) :
  lower q1 = lower q2 ->
  search_employees rows (Some q1) = search_employees rows (Some q2).
Proof.
  intros Hq.
  destruct q1 as [|c1 q1], q2 as [|c2 q2]; try discriminate;
    [reflexivity|].
  unfold search_employees. apply filter_ext. intros e.
  unfold matches, ilike.
  now rewrite !lower_search_pattern, Hq.
Qed.




(** ** The table under [seed_data] and [add_employee] *)

Lemma email_taken_false (rows : list Employee) (e : string) :
  email_taken rows e = false <-> e ∉ map email rows.
Proof.
  unfold email_taken. induction rows as [|r rows IH]; simpl.
  - split; [intros _; apply not_elem_of_nil | reflexivity].
  - rewrite orb_false_iff, IH, not_elem_of_cons, String.eqb_neq.
    split; intros [H1 H2]; split; congruence.
Qed.



Lemma next_id_positive (rows : list Employee) : (1 <= next_id rows)%Z.
Proof.
  unfold next_id.
  induction rows as [|r rows IH]; simpl in *; lia.
Qed.

Lemma seed_rows_emails_unique : NoDup (map email seed_rows).
Proof. apply (bool_decide_unpack _). vm_compute. exact I. Qed.


(** X6: seeding runs at every start but fills an empty table only: a
    table that holds a record is left as it is, the table after a start
    is never empty, and a second start changes nothing. *)
Theorem on_startup_idempotent (r : Employee) (rows : list Employee) :
  on_startup (on_startup rows) = on_startup rows
  /\ on_startup (r :: rows) = r :: rows
  /\ on_startup rows <> [].
Proof.
  split; [|split].
  - destruct rows; reflexivity.
  - reflexivity.
  - destruct rows; discriminate.
Qed.

Section MoreHandlerProperties.

Context {Hash : Type}.
Variable checkpw : string -> Hash -> bool.
Variables ADMIN_HASH USER_HASH : Hash.

Local Abbreviation users := (USERS ADMIN_HASH USER_HASH).
Local Abbreviation current_user := (get_current_user ADMIN_HASH USER_HASH).
Local Abbreviation do_login := (login checkpw ADMIN_HASH USER_HASH).
Local Abbreviation do_directory := (directory ADMIN_HASH USER_HASH).
Local Abbreviation do_add := (add_employee ADMIN_HASH USER_HASH).
Local Abbreviation do_root := (root ADMIN_HASH USER_HASH).
Local Abbreviation do_add_page := (add_employee_page ADMIN_HASH USER_HASH).

(** What [add_employee] can do to the table: nothing, or append the one
    new row, with a fresh email and the next id. *)
Lemma add_employee_table
  (fault : option Exception) (session : gmap string string)
  (n d e p j : string) (rows : list Employee) :
  snd (do_add fault session n d e p j rows) = rows
  \/ (email_taken rows e = false
      /\ snd (do_add fault session n d e p j rows)
         = (rows ++ [mkEmployee (Some (next_id rows)) n d e p j])%list).
Proof.
  unfold add_employee.
  destruct (current_user session) as [u|]; [|now left].
  destruct (negb (String.eqb (role u) "admin")); [now left|].
  destruct fault as [exn|]; [now left|].
  unfold db_commit, db_add; simpl. unfold insert_row; simpl.
  destruct (email_taken rows e) eqn:He; [now left|].
  right. split; reflexivity.
Qed.

(** The other handler of an admin's request: who passes the gate. *)
Lemma add_employee_as_admin
  (fault : option Exception) (session : gmap string string)
  (u : User Hash) (n d e p j : string) (rows : list Employee) :
  current_user session = Some u -> role u = "admin" ->
  do_add fault session n d e p j rows
  = match db_commit fault (db_add (new_Employee n d e p j) (mkDb rows []))
    with
    | (Some _, db') =>
        (Returned
           (TemplateResponse "add_employee.html"
              (mkContext (Some add_error) None (Some u) None)),
         table (db_rollback db'))
    | (None, db') =>
        (Returned (RedirectResponse "/directory" 303), table db')
    end.
Proof.
  intros Hu Hrole. unfold add_employee. rewrite Hu, Hrole. reflexivity.
Qed.

Lemma commit_fresh_email (n d e p j : string) (rows : list Employee) :
  email_taken rows e = false ->
  db_commit None (db_add (new_Employee n d e p j) (mkDb rows []))
  = (None, mkDb (rows ++ [mkEmployee (Some (next_id rows)) n d e p j])%list []).
Proof.
  intros He. unfold db_commit, db_add; simpl.
  unfold insert_row; simpl. rewrite He. reflexivity.
Qed.

(** X7: when an admin adds a record whose email is not in the table and
    the store works, the table gains exactly one row, at its end, with
    the submitted fields and the next free id, and the handler redirects
    to the directory. *)
Theorem add_employee_success
  (session : gmap string string) (u : User Hash)
  (n d e p j : string) (rows : list Employee) :
  current_user session = Some u ->
  role u = "admin" ->
  email_taken rows e = false ->
  do_add None session n d e p j rows
  = (Returned (RedirectResponse "/directory" 303),
     (rows ++ [mkEmployee (Some (next_id rows)) n d e p j])%list).
Proof.
  intros Hu Hrole He.
  rewrite (add_employee_as_admin None session u n d e p j rows Hu Hrole).
  rewrite (commit_fresh_email n d e p j rows He). reflexivity.
Qed.

(** X8: the emails of the table stay pairwise distinct: if they are
    before a start of the application or before a request to
    [add_employee], whoever sends it and whatever it holds, they are
    after it. *)
Theorem emails_stay_unique
  (fault : option Exception) (session : gmap string string)
  (n d e p j : string) (rows : list Employee) :
  NoDup (map email rows) ->
  NoDup (map email (on_startup rows))
  /\ NoDup (map email (snd (do_add fault session n d e p j rows))).
Proof.
  intros Hnd. split.
  - destruct rows; [apply seed_rows_emails_unique | exact Hnd].
  - destruct (add_employee_table fault session n d e p j rows)
      as [-> | [He ->]]; [exact Hnd|].
    rewrite map_app. apply NoDup_app. split; [exact Hnd|]. split.
    + intros x Hx Hx'. apply list_elem_of_singleton in Hx'. simpl in Hx'.
      subst x. now apply email_taken_false in He.
    + apply NoDup_singleton.
Qed.


(** X10: [add_employee] only ever appends: the rows of the table before
    the request are the first rows after it, unchanged and in the same
    order, followed by no or by one new row. *)
Theorem add_employee_appends
  (fault : option Exception) (session : gmap string string)
  (n d e p j : string) (rows : list Employee) :
  exists tail,
    snd (do_add fault session n d e p j rows) = (rows ++ tail)%list
    /\ (length tail <= 1)%nat.
Proof.
  destruct (add_employee_table fault session n d e p j rows)
    as [H | [_ H]]; rewrite H.
  - exists []. rewrite app_nil_r. split; [reflexivity | simpl; lia].
  - eexists. split; [reflexivity | simpl; lia].
Qed.

Lemma USERS_admin :
  users !! "admin" = Some (mkUser ADMIN_HASH "admin" "System Administrator").
Proof. unfold USERS. apply lookup_insert_eq. Qed.

Lemma USERS_employee :
  users !! "employee" = Some (mkUser USER_HASH "employee" "John Doe").
Proof.
  unfold USERS. rewrite lookup_insert_ne by discriminate.
  apply lookup_singleton_eq.
Qed.

(** X11: a session resolves to a user exactly when its key [user] holds
    one of the two handles, spelled exactly; a session without the key,
    with an empty value or with any other value resolves to nobody. The
    user is then the entry of that handle. *)
Theorem get_current_user_Some_iff
  (session : gmap string string) (u : User Hash) :
  current_user session = Some u
  <-> (session !! "user" = Some "admin"
       /\ u = mkUser ADMIN_HASH "admin" "System Administrator")
      \/ (session !! "user" = Some "employee"
          /\ u = mkUser USER_HASH "employee" "John Doe").
Proof.
  unfold get_current_user. split.
  - destruct (session !! "user") as [h|]; [|discriminate].
    destruct (truthy (Some h)); [|discriminate].
    destruct (users !! h) as [u'|] eqn:Hu'; [|discriminate].
    intros [= <-].
    destruct (USERS_lookup_Some _ _ _ _ Hu') as [[-> ->] | [-> ->]];
      [left | right]; split; reflexivity.
  - intros [[-> ->] | [-> ->]]; simpl.
    + now rewrite USERS_admin.
    + now rewrite USERS_employee.
Qed.

(** Only the handle [admin] passes the gate of [add_employee]. *)
Lemma gate_passed_by_admin_handle (session : gmap string string) (u : User Hash) :
  current_user session = Some u -> role u = "admin" ->
  session !! "user" = Some "admin".
Proof.
  unfold get_current_user.
  destruct (session !! "user") as [h|]; [|discriminate].
  destruct (truthy (Some h)); [|discriminate].
  destruct (users !! h) as [u'|] eqn:Hu'; [|discriminate].
  intros [= <-] Hrole.
  destruct (USERS_lookup_Some _ _ _ _ Hu') as [[-> ->] | [-> ->]];
    [reflexivity | discriminate].
Qed.

(** X12: right after a successful login the start page redirects to the
    directory, and the directory is shown, with the result of the query,
    to the user who logged in, whatever the session held before. *)
Theorem login_opens_directory
  (session : gmap string string) (h p : string) (u : User Hash)
  (q : option string) (rows : list Employee) :
  users !! h = Some u ->
  checkpw p (password_hash u) = true ->
  do_root (snd (do_login session h p)) = RedirectResponse "/directory" 303
  /\ do_directory (snd (do_login session h p)) q rows
     = TemplateResponse "directory.html"
         (mkContext None (Some (search_employees rows q)) (Some u) q).
Proof.
  intros Hu Hpw. unfold login, root, directory. rewrite Hu, Hpw. simpl.
  rewrite (get_current_user_insert _ _ session h u Hu).
  split; reflexivity.
Qed.

(** X13: after [logout] nothing is open: the start page and the
    directory redirect to the login page, the form to add a record is
    not shown, and a request to add a record leaves the table as it
    is. *)
Theorem logout_closes_everything
  (session : gmap string string) (fault : option Exception)
  (q : option string) (n d e p j : string) (rows : list Employee) :
  do_root (snd (logout (Hash:=Hash) session)) = RedirectResponse "/login" 303
  /\ do_directory (snd (logout (Hash:=Hash) session)) q rows
     = RedirectResponse "/login" 303
  /\ do_add_page (snd (logout (Hash:=Hash) session))
     = RedirectResponse "/directory" 303
  /\ do_add fault (snd (logout (Hash:=Hash) session)) n d e p j rows
     = (Returned (RedirectResponse "/directory" 303), rows).
Proof.
  unfold logout, root, directory, add_employee_page, add_employee; simpl.
  rewrite get_current_user_empty. repeat split; reflexivity.
Qed.

(** X14: the form and the handler behind it have the same gate: either
    the form is not shown and a request to add a record changes nothing,
    or the session is the one of the handle [admin] and the form is
    shown. *)
Theorem add_employee_page_gate (session : gmap string string) :
  (add_employee_page ADMIN_HASH USER_HASH session = RedirectResponse "/directory" 303
   /\ forall fault n d e p j rows,
        add_employee ADMIN_HASH USER_HASH fault session n d e p j rows
        = (Returned (RedirectResponse "/directory" 303), rows))
  \/ (exists u,
        session !! "user" = Some "admin"
        /\ current_user session = Some u
        /\ role u = "admin"
        /\ add_employee_page ADMIN_HASH USER_HASH session
           = TemplateResponse "add_employee.html"
               (mkContext None None (Some u) None)).
Proof.
  destruct (current_user session) as [u|] eqn:Hu.
  - destruct (String.eqb_spec (role u) "admin") as [Hadmin | Hother].
    + right. exists u. repeat split; try assumption.
      * exact (gate_passed_by_admin_handle session u Hu Hadmin).
      * unfold add_employee_page. rewrite Hu, Hadmin. reflexivity.
    + left. apply String.eqb_neq in Hother.
      unfold add_employee_page, add_employee. rewrite Hu, Hother.
      split; [reflexivity | intros; reflexivity].
  - left. unfold add_employee_page, add_employee. rewrite Hu.
    split; [reflexivity | intros; reflexivity].
Qed.

(** X15: the response does not tell a stored record from a refused one:
    an admin whose record is stored and a user who is not admin and
    whose request is dropped get the same redirect to the directory;
    only the table differs. *)
Theorem add_employee_refusal_like_success
  (admin_session other_session : gmap string string) (u : User Hash)
  (n d e p j : string) (rows : list Employee) :
  current_user admin_session = Some u ->
  role u = "admin" ->
  email_taken rows e = false ->
  (forall u', current_user other_session = Some u' -> role u' <> "admin") ->
  fst (do_add None admin_session n d e p j rows)
  = fst (do_add None other_session n d e p j rows)
  /\ snd (do_add None other_session n d e p j rows) = rows
  /\ snd (do_add None admin_session n d e p j rows) <> rows.
Proof.
  intros Hu Hrole He Hother.
  rewrite (add_employee_as_admin None admin_session u n d e p j rows
             Hu Hrole).
  rewrite (commit_fresh_email n d e p j rows He).
  assert (Hrefused : do_add None other_session n d e p j rows
                     = (Returned (RedirectResponse "/directory" 303), rows)).
  { unfold add_employee.
    destruct (current_user other_session) as [u'|]; [|reflexivity].
    specialize (Hother u' eq_refl). apply String.eqb_neq in Hother.
    now rewrite Hother. }
  rewrite Hrefused. simpl. repeat split.
  intros Heq. apply (f_equal length) in Heq.
  rewrite length_app in Heq. simpl in Heq. lia.
Qed.


End MoreHandlerProperties.

(** ** The further properties on concrete requests *)


Lemma search_term_case_insensitive_witness :
  search_employees seed_rows (Some "ENGIN")
  = search_employees seed_rows (Some "engin").
Proof. apply search_term_case_insensitive. reflexivity. Defined.



Lemma add_employee_success_witness :
  add_employee (Hash:=string) "adminpass" "userpass" None
    {["user" := "admin"]}
    "Zoe Hill" "HR" "zoe@company.com" "555-0111" "Clerk" seed_rows
  = (Returned (RedirectResponse "/directory" 303),
     (seed_rows
      ++ [mkEmployee (Some (next_id seed_rows)) "Zoe Hill" "HR"
            "zoe@company.com" "555-0111" "Clerk"])%list).
Proof.
  apply (add_employee_success "adminpass" "userpass" {["user" := "admin"]}
           (mkUser "adminpass" "admin" "System Administrator"));
    vm_compute; reflexivity.
Defined.

Lemma emails_stay_unique_witness :
  NoDup (map email (on_startup seed_rows))
  /\ NoDup
       (map email
          (snd (add_employee (Hash:=string) "adminpass" "userpass" None
                  {["user" := "admin"]}
                  "Zoe Hill" "HR" "zoe@company.com" "555-0111" "Clerk"
                  seed_rows))).
Proof. apply emails_stay_unique. apply seed_rows_emails_unique. Defined.


Lemma login_opens_directory_witness :
  root (Hash:=string) "adminpass" "userpass"
    (snd (login plain_checkpw "adminpass" "userpass" ∅
            "employee" "userpass"))
  = RedirectResponse "/directory" 303
  /\ directory (Hash:=string) "adminpass" "userpass"
       (snd (login plain_checkpw "adminpass" "userpass" ∅
               "employee" "userpass"))
       (Some "HR") seed_rows
     = TemplateResponse "directory.html"
         (mkContext None (Some (search_employees seed_rows (Some "HR")))
            (Some (mkUser "userpass" "employee" "John Doe")) (Some "HR")).
Proof.
  apply login_opens_directory; vm_compute; reflexivity.
Defined.

Lemma add_employee_refusal_like_success_witness :
  fst (add_employee (Hash:=string) "adminpass" "userpass" None
         {["user" := "admin"]}
         "Zoe Hill" "HR" "zoe@company.com" "555-0111" "Clerk" seed_rows)
  = fst (add_employee (Hash:=string) "adminpass" "userpass" None
           {["user" := "employee"]}
           "Zoe Hill" "HR" "zoe@company.com" "555-0111" "Clerk" seed_rows)
  /\ snd (add_employee (Hash:=string) "adminpass" "userpass" None
            {["user" := "employee"]}
            "Zoe Hill" "HR" "zoe@company.com" "555-0111" "Clerk" seed_rows)
     = seed_rows
  /\ snd (add_employee (Hash:=string) "adminpass" "userpass" None
            {["user" := "admin"]}
            "Zoe Hill" "HR" "zoe@company.com" "555-0111" "Clerk" seed_rows)
     <> seed_rows.
Proof.
  apply (add_employee_refusal_like_success "adminpass" "userpass"
           {["user" := "admin"]} {["user" := "employee"]}
           (mkUser "adminpass" "admin" "System Administrator")).
  - vm_compute; reflexivity.
  - reflexivity.
  - vm_compute; reflexivity.
  - intros u' H. vm_compute in H. injection H as <-. discriminate.
Defined.

